(** * harmonic_vault_interface: the artifact and what it defines

    The repository's single source file, [src/harmonic_vault_interface.py],
    is embedded below character for character.  Everything that follows
    computes on that text: the split into physical lines, the Markdown
    structure (headings, bullets, sections), the Python view of the same
    lines (comments, tokens, statement heads, definitions) and the module
    loader that would run the file. *)

From Stdlib Require Import List String Ascii Bool Arith Lia.
Import ListNotations.
Open Scope string_scope.
Open Scope nat_scope.
Open Scope bool_scope.

(** ** The text of the file *)

Module Text.

(** The line terminator of the file (a single line feed, byte 10). *)
Definition LF : ascii := ascii_of_nat 10.

(** [unlines ls] writes the lines [ls] with one [LF] between two neighbours
    and none after the last one. *)
Fixpoint unlines (ls : list string) : string :=
  match ls with
  | [] => ""
  | [l] => l
  | l :: rest => l ++ String LF (unlines rest)
  end.

(** [rev_string acc s] puts the characters of [s], last first, in front
    of [acc]. *)
Fixpoint rev_string (acc s : string) : string :=
  match s with
  | "" => acc
  | String c s' => rev_string (String c acc) s'
  end.

(** [split_lines_aux cur s] splits [s] at every [LF]; [cur] holds, reversed,
    the characters of the line being read. *)
Fixpoint split_lines_aux (cur s : string) : list string :=
  match s with
  | "" => [rev_string "" cur]
  | String c s' =>
      if Ascii.eqb c LF
      then rev_string "" cur :: split_lines_aux "" s'
      else split_lines_aux (String c cur) s'
  end.

(** The physical lines of a text, as [str.split] on the line feed gives
    them: a text with [n] line feeds has [n + 1] lines, the last one being
    what follows the last line feed. *)
Definition lines (s : string) : list string := split_lines_aux "" s.

(** Number of occurrences of a character. *)
Fixpoint count_char (c : ascii) (s : string) : nat :=
  match s with
  | "" => 0
  | String d s' => (if Ascii.eqb d c then 1 else 0) + count_char c s'
  end.

Definition newline_count (s : string) : nat := count_char LF s.

(** Does the text end with a line feed? *)
Fixpoint ends_with_newline (s : string) : bool :=
  match s with
  | "" => false
  | String c "" => Ascii.eqb c LF
  | String _ s' => ends_with_newline s'
  end.

End Text.

Import Text.

(** The content of [src/harmonic_vault_interface.py]: 515 bytes, given
    here as they are in the file (the line breaks inside the literal are
    the file's line feeds; nothing follows the last full stop). *)
Definition source : string :=
"# harmonic_vault_interface

This module provides a unified interface for vault selection and QR-signing.

## Vault Selection

- Supports: Ellipal, Keystone, Trezor
- Functionality to select vault based on user preferences.

## QR Signing Stubs

- Implementation stubs for signing using QR codes.
- These stubs will need to be filled with the actual signing logic.

## Round-Trip Validation Hooks

- Interfaces for validating the signing process round-trip.
- Hooks to verify the input and output signature validity.".

Example source_size : String.length source = 515.
Proof. reflexivity. Qed.

(** ** Characters and small string helpers *)

Module Chars.

Definition code (c : ascii) : nat := nat_of_ascii c.

Definition is_space (c : ascii) : bool :=
  (code c =? 32) || (code c =? 9).

Definition is_digit (c : ascii) : bool :=
  (48 <=? code c) && (code c <=? 57).

Definition is_alpha (c : ascii) : bool :=
  ((65 <=? code c) && (code c <=? 90)) ||
  ((97 <=? code c) && (code c <=? 122)).

(** First character of a Python identifier (ASCII part of the rule). *)
Definition is_ident_start (c : ascii) : bool :=
  is_alpha c || (code c =? 95).

Definition is_ident_char (c : ascii) : bool :=
  is_ident_start c || is_digit c.

Fixpoint lstrip (s : string) : string :=
  match s with
  | String c s' => if is_space c then lstrip s' else s
  | "" => ""
  end.

(** Number of leading blanks: the indentation of a line. *)
Fixpoint indent (s : string) : nat :=
  match s with
  | String c s' => if is_space c then S (indent s') else 0
  | "" => 0
  end.

Fixpoint drop (n : nat) (s : string) : string :=
  match n, s with
  | 0, _ => s
  | S n', String _ s' => drop n' s'
  | S _, "" => ""
  end.

Fixpoint forallb_string (p : ascii -> bool) (s : string) : bool :=
  match s with
  | "" => true
  | String c s' => p c && forallb_string p s'
  end.

Definition existsb_string (p : ascii -> bool) (s : string) : bool :=
  negb (forallb_string (fun c => negb (p c)) s).

(** [split_on sep s]: the pieces of [s] between occurrences of the
    separator string [sep] (non-empty), as [str.split(sep)] gives them.
    [skip] counts the characters of a separator still to be passed over. *)
Fixpoint split_on_aux (sep : string) (skip : nat) (cur s : string)
  : list string :=
  match s with
  | "" => [rev_string "" cur]
  | String c s' =>
      match skip with
      | S k => split_on_aux sep k cur s'
      | 0 =>
          if String.prefix sep s
          then rev_string "" cur ::
               split_on_aux sep (String.length sep - 1) "" s'
          else split_on_aux sep 0 (String c cur) s'
      end
  end.

Definition split_on (sep s : string) : list string :=
  split_on_aux sep 0 "" s.

End Chars.

Import Chars.

Example split_on_demo :
  split_on ", " "a, b,c, d" = ["a"; "b,c"; "d"].
Proof. reflexivity. Qed.

Example lines_demo : lines ("x" ++ String LF ("" ++ String LF "y")) = ["x"; ""; "y"].
Proof. reflexivity. Qed.

(** ** The Markdown reading of the lines *)

Module Markdown.

Definition is_blank (l : string) : bool := forallb_string is_space l.

(** Number of leading ['#'] characters. *)
Fixpoint hashes (s : string) : nat :=
  match s with
  | String c s' => if code c =? 35 then S (hashes s') else 0
  | "" => 0
  end.

(** Level of an ATX heading (one to six ['#'], then a blank or the end of
    the line); 0 when the line is no heading. *)
Definition heading_level (l : string) : nat :=
  let n := hashes l in
  let after := match drop n l with
               | String c _ => is_space c
               | "" => true
               end in
  if (1 <=? n) && (n <=? 6) && after then n else 0.

Definition is_heading (l : string) : bool := negb (heading_level l =? 0).

Definition heading_title (l : string) : string := lstrip (drop (hashes l) l).

(** A bullet item: the line begins with a dash and a space. *)
Definition is_bullet (l : string) : bool := String.prefix "- " l.

Definition bullet_text (l : string) : string := drop 2 l.

(** A section: its heading and the non-blank lines up to the next heading,
    in the order of the file. *)
Record section : Set := mkSection
  { level : nat
  ; title : string
  ; body : list string }.

Definition close (s : section) : section :=
  mkSection (level s) (title s) (rev (body s)).

Definition push (l : string) (cur : option section) : section :=
  match cur with
  | Some s => mkSection (level s) (title s) (l :: body s)
  | None => mkSection 0 "" [l]      (* text before the first heading *)
  end.

Definition flush (cur : option section) : list section :=
  match cur with
  | Some s => [close s]
  | None => []
  end.

Fixpoint sections_aux (cur : option section) (ls : list string)
  : list section :=
  match ls with
  | [] => flush cur
  | l :: rest =>
      if is_heading l
      then flush cur ++
           sections_aux (Some (mkSection (heading_level l) (heading_title l) []))
                        rest
      else if is_blank l then sections_aux cur rest
      else sections_aux (Some (push l cur)) rest
  end.

Definition sections (text : string) : list section :=
  sections_aux None (lines text).

Definition find_section (t : string) (text : string) : option section :=
  find (fun s => String.eqb (title s) t) (sections text).

(** Bullet groups: the maximal runs of bullet items.  Blank lines between
    two items do not end a run (a loose list); a heading or a prose line
    does.  A group is given by the texts of its items. *)
Definition flush_group (cur : list string) : list (list string) :=
  match cur with
  | [] => []
  | _ => [rev cur]
  end.

Fixpoint bullet_groups_aux (cur : list string) (ls : list string)
  : list (list string) :=
  match ls with
  | [] => flush_group cur
  | l :: rest =>
      if is_bullet l then bullet_groups_aux (bullet_text l :: cur) rest
      else if is_blank l then bullet_groups_aux cur rest
      else flush_group cur ++ bullet_groups_aux [] rest
  end.

Definition bullet_groups (text : string) : list (list string) :=
  bullet_groups_aux [] (lines text).

(** The bullets of a section, and whether its body is bullets only. *)
Definition bullets (s : section) : list string :=
  map bullet_text (filter is_bullet (body s)).

Definition only_bullets (s : section) : bool :=
  negb (match body s with [] => true | _ => false end) &&
  forallb is_bullet (body s).

(** The names listed by a bullet of the form [label: a, b, c]. *)
Definition listed_after (label : string) (item : string) : list string :=
  if String.prefix (label ++ ": ") item
  then split_on ", " (drop (String.length label + 2) item)
  else [].

Definition listed (label : string) (s : section) : list string :=
  flat_map (listed_after label) (bullets s).

End Markdown.

(** ** The Python reading of the lines *)

Module Python.

(** Tokens of a logical line.  A string literal is kept as one token
    without its content.  Literals left open at the end of the line
    (among them multi-line ones), line continuations and characters
    outside ASCII are beyond the fragment: [tokenize] answers [None] on a
    line that holds one. *)
Inductive token : Set :=
  | NAME (s : string)
  | NUMBER (s : string)
  | STRING
  | OP (s : string).

Definition token_eqb (a b : token) : bool :=
  match a, b with
  | NAME x, NAME y => String.eqb x y
  | NUMBER x, NUMBER y => String.eqb x y
  | OP x, OP y => String.eqb x y
  | STRING, STRING => true
  | _, _ => false
  end.

(** First pass: words, string literals, single punctuation characters and
    blanks.  A ['#'] outside a literal starts a comment, which runs to the
    end of the line. *)
Inductive raw : Set :=
  | RWord (s : string)
  | RString
  | RPunct (c : ascii)
  | RSpace.

Definition is_punct (c : ascii) : bool :=
  existsb_string (Ascii.eqb c) "+-*/%@&|^~<>()[]{},:.;=!".

(** Single quote (39) or double quote (34). *)
Definition is_quote (c : ascii) : bool :=
  (code c =? 39) || (code c =? 34).

Definition string_prefixes : list string :=
  ["r"; "u"; "b"; "f"; "R"; "U"; "B"; "F"; "br"; "rb"; "fr"; "rf";
   "Br"; "bR"; "BR"; "Rb"; "rB"; "RB"; "Fr"; "fR"; "FR"; "Rf"; "rF"; "RF"].

Definition flush_word (cur : string) (r : list raw) : list raw :=
  match cur with
  | "" => r
  | _ => RWord (rev_string "" cur) :: r
  end.

(** A word that touches an opening quote is the literal's prefix when it
    is one of [string_prefixes]; any other word is a token of its own. *)
Definition flush_prefix (cur : string) (r : list raw) : list raw :=
  if existsb (String.eqb (rev_string "" cur)) string_prefixes
  then r else flush_word cur r.

(** [scan q esc cur s]: [q] is the quote of the literal being read, if
    any; [esc] says that the previous character was a backslash inside
    it; [cur] holds, reversed, the word being read. *)
Fixpoint scan (q : option ascii) (esc : bool) (cur : string) (s : string)
  : option (list raw) :=
  match s with
  | "" =>
      match q with
      | Some _ => None
      | None => Some (flush_word cur [])
      end
  | String c s' =>
      match q with
      | Some d =>
          if esc then scan q false "" s'
          else if code c =? 92 then scan q true "" s'
          else if Ascii.eqb c d
          then option_map (cons RString) (scan None false "" s')
          else scan q false "" s'
      | None =>
          if is_ident_char c then scan None false (String c cur) s'
          else if is_quote c
          then option_map (flush_prefix cur) (scan (Some c) false "" s')
          else if code c =? 35 then Some (flush_word cur [])
          else if is_space c
          then option_map (fun r => flush_word cur (RSpace :: r))
                          (scan None false "" s')
          else if is_punct c
          then option_map (fun r => flush_word cur (RPunct c :: r))
                          (scan None false "" s')
          else None
      end
  end.

Definition ops3 : list string := ["**="; "//="; ">>="; "<<="; "..."].

Definition ops2 : list string :=
  ["=="; "!="; "<="; ">="; "->"; ":="; "+="; "-="; "*="; "/="; "%="; "&=";
   "|="; "^="; "@="; "**"; "//"; "<<"; ">>"].

Definition str1 (a : ascii) : string := String a "".
Definition str2 (a b : ascii) : string := String a (String b "").
Definition str3 (a b c : ascii) : string := String a (String b (String c "")).

Definition mem (s : string) (l : list string) : bool :=
  existsb (String.eqb s) l.

Definition word_token (w : string) : token :=
  match w with
  | String c _ => if is_digit c then NUMBER w else NAME w
  | "" => NAME w
  end.

(** A lone ['!'] is no operator. *)
Definition op1 (a : ascii) : option token :=
  if code a =? 33 then None else Some (OP (str1 a)).

Definition cons_opt (t : option token) (r : option (list token))
  : option (list token) :=
  match t, r with
  | Some t', Some r' => Some (t' :: r')
  | _, _ => None
  end.

(** Second pass: longest-match grouping of punctuation into operators. *)
Fixpoint merge (rs : list raw) : option (list token) :=
  match rs with
  | [] => Some []
  | RSpace :: rest => merge rest
  | RWord w :: rest => cons_opt (Some (word_token w)) (merge rest)
  | RString :: rest => cons_opt (Some STRING) (merge rest)
  | RPunct a :: rest =>
      match rest with
      | RPunct b :: rest2 =>
          match rest2 with
          | RPunct c :: rest3 =>
              if mem (str3 a b c) ops3
              then cons_opt (Some (OP (str3 a b c))) (merge rest3)
              else if mem (str2 a b) ops2
              then cons_opt (Some (OP (str2 a b))) (merge rest2)
              else cons_opt (op1 a) (merge rest)
          | _ =>
              if mem (str2 a b) ops2
              then cons_opt (Some (OP (str2 a b))) (merge rest2)
              else cons_opt (op1 a) (merge rest)
          end
      | _ => cons_opt (op1 a) (merge rest)
      end
  end.

Definition tokenize (line : string) : option (list token) :=
  match scan None false "" line with
  | Some rs => merge rs
  | None => None
  end.

(** A line that is blank or holds a comment only yields no token. *)
Definition is_comment (line : string) : bool :=
  match lstrip line with
  | String c _ => code c =? 35
  | "" => false
  end.

Definition keywords : list string :=
  ["False"; "None"; "True"; "and"; "as"; "assert"; "async"; "await";
   "break"; "class"; "continue"; "def"; "del"; "elif"; "else"; "except";
   "finally"; "for"; "from"; "global"; "if"; "import"; "in"; "is";
   "lambda"; "nonlocal"; "not"; "or"; "pass"; "raise"; "return"; "try";
   "while"; "with"; "yield"].

Definition soft_keywords : list string := ["match"; "case"; "type"; "_"].

Definition is_keyword (s : string) : bool :=
  mem s keywords || mem s soft_keywords.

(** A name that is an identifier and no keyword. *)
Definition plain_name (t : token) : bool :=
  match t with
  | NAME s => negb (is_keyword s)
  | _ => false
  end.

(** *** Statement heads *)

Inductive stmt_kind : Set :=
  | SEmpty                      (* blank line or comment *)
  | SImport
  | SDef (name : string)
  | SClass (name : string)
  | SAssign
  | SDecorator
  | SControl (kw : string)      (* head of a compound statement *)
  | SSimple (kw : string)       (* return, raise, pass, ... *)
  | SExpr.                      (* anything else: an expression statement *)

Definition control_keywords : list string :=
  ["if"; "elif"; "else"; "for"; "while"; "try"; "except"; "finally"; "with"].

Definition simple_keywords : list string :=
  ["return"; "raise"; "pass"; "break"; "continue"; "del"; "global";
   "nonlocal"; "assert"; "yield"; "await"].

Definition assign_ops : list string :=
  ["="; "+="; "-="; "*="; "/="; "%="; "&="; "|="; "^="; "@="; "**="; "//=";
   ">>="; "<<="].

Definition opening : list string := ["("; "["; "{"].
Definition closing : list string := [")"; "]"; "}"].

(** An assignment operator outside every bracket. *)
Fixpoint has_assign (depth : nat) (ts : list token) : bool :=
  match ts with
  | [] => false
  | OP o :: rest =>
      if mem o opening then has_assign (S depth) rest
      else if mem o closing then has_assign (pred depth) rest
      else ((depth =? 0) && mem o assign_ops) || has_assign depth rest
  | _ :: rest => has_assign depth rest
  end.

Definition last_is_colon (ts : list token) : bool :=
  match rev ts with
  | OP o :: _ => String.eqb o ":"
  | _ => false
  end.

Definition name_after (ts : list token) : string :=
  match ts with
  | NAME f :: _ => f
  | _ => ""
  end.

Definition stmt_kind_of (ts : list token) : stmt_kind :=
  match ts with
  | [] => SEmpty
  | NAME k :: rest =>
      if mem k ["import"; "from"] then SImport
      else if String.eqb k "def" then SDef (name_after rest)
      else if String.eqb k "class" then SClass (name_after rest)
      else if String.eqb k "async" then
        match rest with
        | NAME k2 :: rest2 =>
            if String.eqb k2 "def" then SDef (name_after rest2)
            else SControl k2
        | _ => SExpr
        end
      else if mem k control_keywords then SControl k
      else if mem k ["match"; "case"] && last_is_colon ts
                && negb (has_assign 0 ts) then SControl k
      else if mem k simple_keywords then SSimple k
      else if has_assign 0 ts then SAssign
      else SExpr
  | OP o :: _ =>
      if String.eqb o "@" then SDecorator
      else if has_assign 0 ts then SAssign
      else SExpr
  | _ => if has_assign 0 ts then SAssign else SExpr
  end.

(** The statement kind a physical line begins, when it can be read. *)
Definition line_stmt (l : string) : option stmt_kind :=
  option_map stmt_kind_of (tokenize l).

(** The line begins an import, a def, a class or an assignment. *)
Definition begins_definition (l : string) : bool :=
  match line_stmt l with
  | Some SImport | Some (SDef _) | Some (SClass _) | Some SAssign => true
  | _ => false
  end.

Definition begins_control_flow (l : string) : bool :=
  match line_stmt l with
  | Some (SControl _) => true
  | _ => false
  end.

(** *** What a module defines *)

(** The targets of an assignment: the plain names before the first
    annotation colon or assignment operator, outside brackets. *)
Fixpoint targets (depth : nat) (ts : list token) : list string :=
  match ts with
  | [] => []
  | OP o :: rest =>
      if mem o opening then targets (S depth) rest
      else if mem o closing then targets (pred depth) rest
      else if (depth =? 0) && (mem o assign_ops || String.eqb o ":") then []
      else targets depth rest
  | NAME n :: rest =>
      if (depth =? 0) && negb (is_keyword n) then n :: targets depth rest
      else targets depth rest
  | _ :: rest => targets depth rest
  end.

Definition line_defines (l : string) : list string :=
  match tokenize l with
  | Some ts =>
      match stmt_kind_of ts with
      | SDef f => [f]
      | SClass c => [c]
      | SAssign => targets 0 ts
      | _ => []
      end
  | None => []
  end.

(** Every name bound by a def, a class or an assignment of the text. *)
Definition defined_names (text : string) : list string :=
  flat_map line_defines (lines text).

Definition defines (text : string) (name : string) : bool :=
  mem name (defined_names text).

Inductive def_kind : Set := Function | Method | Class.

(** An operation: a def or class statement with the lines of its suite. *)
Record operation : Set := mkOperation
  { op_kind : def_kind
  ; op_name : string
  ; op_line : nat
  ; op_body : list string }.

(** The suite of a head indented by [ind]: the following lines that are
    blank or indented deeper. *)
Fixpoint suite (ind : nat) (ls : list string) : list string :=
  match ls with
  | [] => []
  | l :: rest =>
      if Markdown.is_blank l || (ind <? indent l)
      then l :: suite ind rest else []
  end.

Fixpoint operations_aux (n : nat) (ls : list string) : list operation :=
  match ls with
  | [] => []
  | l :: rest =>
      match line_stmt l with
      | Some (SDef f) =>
          mkOperation (if indent l =? 0 then Function else Method) f n
                      (suite (indent l) rest)
          :: operations_aux (S n) rest
      | Some (SClass c) =>
          mkOperation Class c n (suite (indent l) rest)
          :: operations_aux (S n) rest
      | _ => operations_aux (S n) rest
      end
  end.

(** The callable operations of a module, with 1-based line numbers. *)
Definition operations (text : string) : list operation :=
  operations_aux 1 (lines text).

(** Line numbers of the lines selected by [p] (1-based). *)
Fixpoint numbered_aux (p : string -> bool) (n : nat) (ls : list string)
  : list nat :=
  match ls with
  | [] => []
  | l :: rest =>
      if p l then n :: numbered_aux p (S n) rest
      else numbered_aux p (S n) rest
  end.

Definition lines_where (p : string -> bool) (text : string) : list nat :=
  numbered_aux p 1 (lines text).

Definition has_name (ns : list string) (ts : list token) : bool :=
  existsb (fun t => match t with NAME n => mem n ns | _ => false end) ts.

Definition line_has_name (ns : list string) (l : string) : bool :=
  match tokenize l with
  | Some ts => has_name ns ts
  | None => false
  end.

(** Lines from which an exception is raised or handled, or a value is
    returned. *)
Definition failure_keywords : list string :=
  ["raise"; "assert"; "except"; "return"].

Definition failure_sites (text : string) : list nat :=
  lines_where (line_has_name failure_keywords) text.

Definition may_fail (op : operation) : bool :=
  existsb (line_has_name failure_keywords) (op_body op).

(** A call: a name, a closing bracket or a literal directly followed by an
    opening parenthesis.  The name that a def or class statement
    introduces is no call. *)
Definition introduces (t : token) : bool :=
  match t with
  | NAME k => mem k ["def"; "class"]
  | _ => false
  end.

Fixpoint has_call (ts : list token) : bool :=
  match ts with
  | [] => false
  | t :: rest =>
      match rest with
      | OP o :: _ =>
          (String.eqb o "(" &&
           match t with
           | NAME n => negb (mem n keywords)
           | OP c => mem c closing
           | _ => true
           end) || has_call rest
      | NAME _ :: rest2 =>
          if introduces t then has_call rest2 else has_call rest
      | _ => has_call rest
      end
  end.

Definition line_has_call (l : string) : bool :=
  match tokenize l with
  | Some ts => has_call ts
  | None => false
  end.

Definition call_sites (text : string) : list nat :=
  lines_where line_has_call text.

Definition import_sites (text : string) : list nat :=
  lines_where (fun l => match line_stmt l with
                        | Some SImport => true
                        | _ => false
                        end) text.

(** Names through which a module reaches its environment, its command
    line or its entry point. *)
Definition environment_names : list string :=
  ["environ"; "getenv"; "putenv"; "argv"; "argparse"; "stdin"; "stdout";
   "stderr"; "__name__"; "__main__"].

Definition environment_sites (text : string) : list nat :=
  lines_where (line_has_name environment_names) text.

(** Keywords and operators that state a condition. *)
Definition predicate_keywords : list string :=
  ["if"; "elif"; "while"; "lambda"; "and"; "or"; "not"; "in"; "is"].

Definition comparison_ops : list string :=
  ["=="; "!="; "<"; ">"; "<="; ">="].

Definition has_predicate (ts : list token) : bool :=
  existsb (fun t => match t with
                    | NAME n => mem n predicate_keywords
                    | OP o => mem o comparison_ops
                    | _ => false
                    end) ts.

Definition predicate_sites (text : string) : list nat :=
  lines_where (fun l => match tokenize l with
                        | Some ts => has_predicate ts
                        | None => false
                        end) text.

End Python.

Example tokenize_demo :
  Python.tokenize "x1 **= f(y) != 3  # note"
  = Some [Python.NAME "x1"; Python.OP "**="; Python.NAME "f"; Python.OP "(";
          Python.NAME "y"; Python.OP ")"; Python.OP "!="; Python.NUMBER "3"].
Proof. reflexivity. Qed.

Example tokenize_string_literal :
  Python.tokenize "x = f'a # b' + 'c\'d'"
  = Some [Python.NAME "x"; Python.OP "="; Python.STRING; Python.OP "+";
          Python.STRING].
Proof. reflexivity. Qed.

Example tokenize_open_literal : Python.tokenize "x = 'a b" = None.
Proof. reflexivity. Qed.

(** A small module in the fragment, to see the scanners at work. *)
Definition demo_module : string := unlines
  [ "import os"
  ; "LIMIT = 3"
  ; "class Vault:"
  ; "    def sign(self, tx):"
  ; "        if tx is None:"
  ; "            raise ValueError('empty')"
  ; "        return os.environ['KEY']"
  ; ""
  ; "def select(name):"
  ; "    return Vault()"
  ].

Example demo_defined :
  Python.defined_names demo_module = ["LIMIT"; "Vault"; "sign"; "select"].
Proof. reflexivity. Qed.

Example demo_operations :
  map (fun o => (Python.op_kind o, Python.op_name o, Python.op_line o,
                 List.length (Python.op_body o), Python.may_fail o))
      (Python.operations demo_module)
  = [ (Python.Class, "Vault", 3, 5, true)
    ; (Python.Method, "sign", 4, 4, true)
    ; (Python.Function, "select", 9, 1, true) ].
Proof. reflexivity. Qed.

Example demo_sites :
  Python.import_sites demo_module = [1] /\
  Python.call_sites demo_module = [6; 10] /\
  Python.failure_sites demo_module = [6; 7; 10] /\
  Python.environment_sites demo_module = [7] /\
  Python.predicate_sites demo_module = [5] /\
  Python.lines_where Python.begins_control_flow demo_module = [5] /\
  Python.lines_where Python.begins_definition demo_module = [1; 2; 3; 4; 9].
Proof. repeat split; reflexivity. Qed.

(** ** Compiling and loading a module *)

Module Loader.

Import Python.

(** Two identifiers side by side, neither of them a keyword.  No
    production of the Python grammar derives such a pair, so a logical
    line that holds one is rejected by the parser. *)
Fixpoint adjacent_names (ts : list token) : bool :=
  match ts with
  | [] => false
  | a :: rest =>
      match rest with
      | b :: _ => (plain_name a && plain_name b) || adjacent_names rest
      | [] => false
      end
  end.

Inductive compile_result : Set :=
  | SyntaxError (lineno : nat)
  | Code (body : list (nat * list token)).

(** The lines are read in order.  The answer is [None] when a line leaves
    the fragment before an error is found; [SyntaxError n] names the first
    line that the grammar cannot derive; [Code] lists the statements that
    were kept, and stands for every text this check lets through. *)
Fixpoint compile_lines (n : nat) (ls : list string) : option compile_result :=
  match ls with
  | [] => Some (Code [])
  | l :: rest =>
      match tokenize l with
      | None => None
      | Some ts =>
          if adjacent_names ts then Some (SyntaxError n)
          else
            match compile_lines (S n) rest with
            | Some (Code b) =>
                Some (Code (match ts with
                            | [] => b
                            | _ => (n, ts) :: b
                            end))
            | r => r
            end
      end
  end.

Definition py_compile (text : string) : option compile_result :=
  compile_lines 1 (lines text).

(** The first line that is neither blank nor a comment (1-based). *)
Definition first_statement_line (text : string) : option nat :=
  hd_error
    (lines_where (fun l => negb (Markdown.is_blank l) && negb (is_comment l))
                 text).

Inductive load_result : Set :=
  | ImportFailed (lineno : nat)
  | Imported.

Section Importing.

(** The state outside the interpreter (files, sockets, environment,
    standard streams) and the effect of running one statement on it. *)
Variable World : Type.
Variable exec_stmt : list token -> World -> World.

Definition run (body : list (nat * list token)) (w : World) : World :=
  fold_left (fun w' s => exec_stmt (snd s) w') body w.

(** Importing compiles the whole text first; no statement runs when
    compilation fails. *)
Definition import_module (text : string) (w : World)
  : option (load_result * World) :=
  match py_compile text with
  | None => None
  | Some (SyntaxError n) => Some (ImportFailed n, w)
  | Some (Code body) => Some (Imported, run body w)
  end.

End Importing.

End Loader.

Example demo_compiles :
  option_map (fun r => match r with
                       | Loader.Code b => map fst b
                       | Loader.SyntaxError _ => []
                       end) (Loader.py_compile demo_module)
  = Some [1; 2; 3; 4; 5; 6; 7; 9; 10].
Proof. reflexivity. Qed.

(** Running a module that compiles does reach the statements. *)
Example demo_runs :
  Loader.import_module nat (fun _ w => S w) demo_module 0
  = Some (Loader.Imported, 9).
Proof. reflexivity. Qed.

(** ** Kinds of lines *)

Inductive line_kind : Set :=
  | Blank
  | Heading
  | Bullet
  | Prose
  | PyStatement
  | Other.

(** Plain prose: the line starts with a letter, is made of words and
    common punctuation, and begins no Python definition. *)
Definition prose_char (c : ascii) : bool :=
  is_alpha c || is_digit c || (code c =? 32) ||
  existsb_string (Ascii.eqb c) ".,;:!?'()-_".

Definition is_prose (l : string) : bool :=
  match l with
  | String c _ =>
      is_alpha c && forallb_string prose_char l &&
      negb (Python.begins_definition l)
  | "" => false
  end.

Definition classify (l : string) : line_kind :=
  if Markdown.is_blank l then Blank
  else if Markdown.is_heading l then Heading
  else if Markdown.is_bullet l then Bullet
  else if Python.begins_definition l then PyStatement
  else if is_prose l then Prose
  else Other.

Definition markdown_kind (k : line_kind) : bool :=
  match k with
  | Blank | Heading | Bullet | Prose => true
  | PyStatement | Other => false
  end.

Example classify_demo :
  map classify (lines demo_module)
  = [PyStatement; PyStatement; PyStatement; PyStatement; Other; Other;
     Other; Blank; PyStatement; Other].
Proof. reflexivity. Qed.

(** * Properties *)

(** ** General facts about the scanners *)

Lemma split_lines_aux_length (s cur : string) :
  List.length (split_lines_aux cur s) = S (newline_count s).
Proof.
  revert cur; induction s as [|c s IH]; intro cur; simpl.
  - reflexivity.
  - unfold newline_count in *; simpl.
    destruct (Ascii.eqb c LF); simpl; rewrite IH; reflexivity.
Qed.

(** A text has one line more than it has line feeds. *)
Lemma lines_length (s : string) :
  List.length (lines s) = S (newline_count s).
Proof. apply split_lines_aux_length. Qed.

Lemma lines_nonempty (s : string) : lines s <> [].
Proof.
  intro H. pose proof (lines_length s) as L. rewrite H in L. discriminate.
Qed.

Lemma mem_nil (x : string) : Python.mem x [] = false.
Proof. reflexivity. Qed.

(** A text whose lines bind nothing defines no name. *)
Lemma defines_none (text : string) :
  Python.defined_names text = [] ->
  forall name, Python.defines text name = false.
Proof.
  intros H name. unfold Python.defines. rewrite H. apply mem_nil.
Qed.

Lemma line_defines_needs_head (l : string) :
  Python.begins_definition l = false -> Python.line_defines l = [].
Proof.
  unfold Python.begins_definition, Python.line_defines, Python.line_stmt.
  destruct (Python.tokenize l) as [ts|]; simpl; [|reflexivity].
  destruct (Python.stmt_kind_of ts); intro H;
    try reflexivity; discriminate.
Qed.

(** Names are bound only on lines that begin a definition. *)
Lemma defined_names_need_heads (ls : list string) :
  forallb (fun l => negb (Python.begins_definition l)) ls = true ->
  flat_map Python.line_defines ls = [].
Proof.
  induction ls as [|l ls IH]; simpl; [reflexivity|].
  intro H. apply andb_prop in H as [Hl Hls].
  apply negb_true_iff in Hl.
  rewrite (line_defines_needs_head l Hl), (IH Hls). reflexivity.
Qed.

(** Operations start only on lines that begin a definition. *)
Lemma operations_need_heads (ls : list string) (n : nat) :
  forallb (fun l => negb (Python.begins_definition l)) ls = true ->
  Python.operations_aux n ls = [].
Proof.
  revert n; induction ls as [|l ls IH]; intros n; simpl; [reflexivity|].
  intro H. apply andb_prop in H as [Hl Hls].
  apply negb_true_iff in Hl.
  unfold Python.begins_definition in Hl.
  destruct (Python.line_stmt l) as [[]|]; try discriminate; auto.
Qed.

Section LoaderFacts.

Variable World : Type.
Variable exec_stmt : list Python.token -> World -> World.

Lemma run_nil (w : World) : Loader.run World exec_stmt [] w = w.
Proof. reflexivity. Qed.

(** A module without statements loads and changes nothing. *)
Lemma import_empty (text : string) (w : World) :
  Loader.py_compile text = Some (Loader.Code []) ->
  Loader.import_module World exec_stmt text w = Some (Loader.Imported, w).
Proof.
  intro H. unfold Loader.import_module. rewrite H. reflexivity.
Qed.

(** When compilation stops at a syntax error the import fails there and
    the outside state is the one it started from. *)
Lemma import_syntax_error (text : string) (n : nat) (w : World) :
  Loader.py_compile text = Some (Loader.SyntaxError n) ->
  Loader.import_module World exec_stmt text w = Some (Loader.ImportFailed n, w).
Proof.
  intro H. unfold Loader.import_module. rewrite H. reflexivity.
Qed.

End LoaderFacts.

(** A syntax error is reported only at a line with two adjacent names. *)
Lemma compile_lines_error (ls : list string) (n k : nat) :
  Loader.compile_lines n ls = Some (Loader.SyntaxError k) ->
  exists l ts, nth_error ls (k - n) = Some l /\ n <= k /\
               Python.tokenize l = Some ts /\
               Loader.adjacent_names ts = true.
Proof.
  revert n; induction ls as [|l ls IH]; intros n; simpl.
  - discriminate.
  - destruct (Python.tokenize l) as [ts|] eqn:Ht; [|discriminate].
    destruct (Loader.adjacent_names ts) eqn:Ha.
    + intro H; injection H as <-. exists l, ts.
      rewrite Nat.sub_diag. simpl. auto.
    + destruct (Loader.compile_lines (S n) ls) as [[j|b]|] eqn:Hc;
        try discriminate.
      intro H; injection H as ->.
      destruct (IH _ Hc) as (l' & ts' & Hn & Hle & Ht' & Ha').
      exists l', ts'. repeat split; auto; [|lia].
      replace (k - n) with (S (k - S n)) by lia. exact Hn.
Qed.

(** ** The lines of the artifact *)

Definition source_lines : list string :=
  [ "# harmonic_vault_interface"
  ; ""
  ; "This module provides a unified interface for vault selection and QR-signing."
  ; ""
  ; "## Vault Selection"
  ; ""
  ; "- Supports: Ellipal, Keystone, Trezor"
  ; "- Functionality to select vault based on user preferences."
  ; ""
  ; "## QR Signing Stubs"
  ; ""
  ; "- Implementation stubs for signing using QR codes."
  ; "- These stubs will need to be filled with the actual signing logic."
  ; ""
  ; "## Round-Trip Validation Hooks"
  ; ""
  ; "- Interfaces for validating the signing process round-trip."
  ; "- Hooks to verify the input and output signature validity."
  ].

Lemma source_split : lines source = source_lines.
Proof. reflexivity. Qed.

Lemma source_no_heads :
  forallb (fun l => negb (Python.begins_definition l)) (lines source) = true.
Proof. vm_compute. reflexivity. Qed.

Lemma source_compile : Loader.py_compile source = Some (Loader.SyntaxError 3).
Proof. vm_compute. reflexivity. Qed.

(** ** What the module defines *)

(** C1: the source defines no operation.  For every name, the text binds
    it neither by a def, nor by a class, nor by an assignment; the list of
    callable operations (functions, methods, classes) is empty; no line
    begins a compound (control-flow) statement. *)
Theorem source_defines_nothing :
  (forall name : string, Python.defines source name = false) /\
  Python.defined_names source = [] /\
  Python.operations source = [] /\
  Python.lines_where Python.begins_control_flow source = [].
Proof.
  assert (D : Python.defined_names source = []).
  { apply defined_names_need_heads, source_no_heads. }
  split; [apply defines_none, D|].
  split; [exact D|].
  split.
  - apply operations_need_heads, source_no_heads.
  - vm_compute. reflexivity.
Qed.

(** ** Size of the file *)

(** C2, as stated, fails: the text does not have 17 lines. *)
Lemma source_not_seventeen_lines : List.length (lines source) <> 17.
Proof.
  rewrite lines_length. intro H. injection H as H.
  vm_compute in H. discriminate.
Qed.

(** C2 (amended): the source consists of exactly 18 lines of text; it
    holds 17 line feeds and its last line has no terminating line feed. *)
Theorem source_line_count :
  List.length (lines source) = 18 /\
  newline_count source = 17 /\
  ends_with_newline source = false.
Proof.
  assert (N : newline_count source = 17) by (vm_compute; reflexivity).
  split; [rewrite lines_length, N; reflexivity|].
  split; [exact N | reflexivity].
Qed.

(** ** The file as Python *)

(** C3: the content is not valid Python.  The first line that is neither
    blank nor a comment is line 3; it is bare prose (it starts with two
    plain identifiers, [This module], and begins no statement keyword);
    compilation stops there with a syntax error, so every import, whatever
    the state it starts from, fails at line 3 and loads nothing. *)
Theorem source_is_not_python :
  Loader.first_statement_line source = Some 3 /\
  (exists l rest,
      nth_error (lines source) 2 = Some l /\
      Python.tokenize l
      = Some (Python.NAME "This" :: Python.NAME "module" :: rest) /\
      Python.line_stmt l = Some Python.SExpr /\
      classify l = Prose) /\
  Loader.py_compile source = Some (Loader.SyntaxError 3) /\
  (forall (World : Type) (exec_stmt : list Python.token -> World -> World)
          (w : World),
      Loader.import_module World exec_stmt source w
      = Some (Loader.ImportFailed 3, w)).
Proof.
  split; [vm_compute; reflexivity|].
  split.
  - eexists; eexists. split; [reflexivity|].
    split; [vm_compute; reflexivity|].
    split; vm_compute; reflexivity.
  - split; [exact source_compile|].
    intros World exec_stmt w. apply import_syntax_error, source_compile.
Qed.

(** ** Sections and bullets *)

Definition level2 (text : string) : list Markdown.section :=
  filter (fun s => Markdown.level s =? 2) (Markdown.sections text).

(** The lines of a section's body as a text of their own. *)
Definition section_text (s : Markdown.section) : string :=
  unlines (Markdown.body s).

(** C4: beneath the title heading the source has exactly three sections,
    "Vault Selection", "QR Signing Stubs" and "Round-Trip Validation
    Hooks"; the body of each consists of bullet items only, each item
    being plain prose; and the bullet
    groups of the whole text are exactly the bullets of these three
    sections, so there are three groups and no others. *)
Theorem source_bullet_groups :
  map (fun s => (Markdown.level s, Markdown.title s)) (Markdown.sections source)
  = [ (1, "harmonic_vault_interface")
    ; (2, "Vault Selection")
    ; (2, "QR Signing Stubs")
    ; (2, "Round-Trip Validation Hooks") ] /\
  forallb Markdown.only_bullets (level2 source) = true /\
  forallb (fun s => forallb is_prose (Markdown.bullets s)) (level2 source)
  = true /\
  Markdown.bullet_groups source = map Markdown.bullets (level2 source) /\
  List.length (Markdown.bullet_groups source) = 3.
Proof. repeat split; vm_compute; reflexivity. Qed.

(** No line of a section's body binds a name, starts an operation, begins
    a compound statement or makes a call. *)
Definition no_code (s : Markdown.section) : Prop :=
  Python.defined_names (section_text s) = [] /\
  Python.operations (section_text s) = [] /\
  Python.lines_where Python.begins_control_flow (section_text s) = [] /\
  Python.call_sites (section_text s) = [].

(** C5: the "Vault Selection" section names exactly three vendor targets,
    Ellipal, Keystone and Trezor, in its [Supports] bullet; its body is two
    prose bullets and holds no executable selection logic, nor any
    condition keyword or comparison that could state a criterion. *)
Theorem vault_selection_section :
  exists s,
    Markdown.find_section "Vault Selection" source = Some s /\
    Markdown.listed "Supports" s = ["Ellipal"; "Keystone"; "Trezor"] /\
    Markdown.bullets s
    = [ "Supports: Ellipal, Keystone, Trezor"
      ; "Functionality to select vault based on user preferences." ] /\
    Markdown.only_bullets s = true /\
    no_code s /\
    Python.predicate_sites (section_text s) = [].
Proof.
  eexists. split; [vm_compute; reflexivity|].
  repeat split; vm_compute; reflexivity.
Qed.

(** C6: the "QR Signing Stubs" section holds no signing implementation:
    its body is two prose bullets, the second of which says that the stubs
    still have to be filled with the actual signing logic; and the source
    as a whole defines no operation, hence no QR-signing one. *)
Theorem qr_signing_section :
  exists s,
    Markdown.find_section "QR Signing Stubs" source = Some s /\
    Markdown.bullets s
    = [ "Implementation stubs for signing using QR codes."
      ; "These stubs will need to be filled with the actual signing logic." ] /\
    Markdown.only_bullets s = true /\
    no_code s /\
    Python.operations source = [].
Proof.
  eexists. split; [vm_compute; reflexivity|].
  split; [reflexivity|]. split; [reflexivity|].
  split; [repeat split; vm_compute; reflexivity|].
  apply operations_need_heads, source_no_heads.
Qed.

(** C7: the "Round-Trip Validation Hooks" section states interface intent
    only: its body is two prose bullets, one naming interfaces and one
    naming hooks; it defines no verification algorithm, and the source as
    a whole defines no operation, hence no validation or
    signature-verification function. *)
Theorem round_trip_section :
  exists s,
    Markdown.find_section "Round-Trip Validation Hooks" source = Some s /\
    Markdown.bullets s
    = [ "Interfaces for validating the signing process round-trip."
      ; "Hooks to verify the input and output signature validity." ] /\
    Markdown.only_bullets s = true /\
    no_code s /\
    Python.operations source = [].
Proof.
  eexists. split; [vm_compute; reflexivity|].
  split; [reflexivity|]. split; [reflexivity|].
  split; [repeat split; vm_compute; reflexivity|].
  apply operations_need_heads, source_no_heads.
Qed.

(** ** Failure modes and effects *)

(** C8: the program has no failure mode of its own: the list of defined
    operations is empty, so none of them can raise or return an error, and
    no line of the text raises, asserts, handles an exception or
    returns. *)
Theorem source_no_failure_modes :
  Python.operations source = [] /\
  filter Python.may_fail (Python.operations source) = [] /\
  Python.failure_sites source = [].
Proof.
  assert (O : Python.operations source = []).
  { apply operations_need_heads, source_no_heads. }
  rewrite O. split; [reflexivity|]. split; [reflexivity|].
  vm_compute. reflexivity.
Qed.

(** C9: the program performs no input or output: the text imports no
    module, calls nothing, and names neither the environment, nor the
    command line, nor an entry point; and evaluating it leaves the outside
    state as it was, whatever the effect of a statement would be. *)
Theorem source_no_external_effects :
  Python.import_sites source = [] /\
  Python.call_sites source = [] /\
  Python.environment_sites source = [] /\
  (forall (World : Type) (exec_stmt : list Python.token -> World -> World)
          (w : World),
      option_map snd (Loader.import_module World exec_stmt source w)
      = Some w).
Proof.
  split; [vm_compute; reflexivity|].
  split; [vm_compute; reflexivity|].
  split; [vm_compute; reflexivity|].
  intros World exec_stmt w.
  rewrite (import_syntax_error World exec_stmt source 3 w source_compile).
  reflexivity.
Qed.

(** ** Kinds of lines *)

(** C10: every line of the source is blank, a heading beginning with
    ['#'], a bullet item beginning with ['- '], or plain prose; no line
    begins a Python import, def, class or assignment statement. *)
Theorem source_line_kinds :
  Forall (fun l =>
            (classify l = Blank \/
             (classify l = Heading /\ String.prefix "#" l = true) \/
             (classify l = Bullet /\ String.prefix "- " l = true) \/
             classify l = Prose) /\
            Python.begins_definition l = false)
         (lines source).
Proof.
  rewrite source_split. unfold source_lines.
  repeat (apply Forall_cons || apply Forall_nil);
    (split; [|vm_compute; reflexivity]); vm_compute;
    solve [ left; reflexivity
          | right; left; split; reflexivity
          | right; right; left; split; reflexivity
          | right; right; right; reflexivity ].
Qed.
